(** * x/nft/simulation/operations.go

    A shallow embedding of the four simulation operations of the NFT module
    (transfer, edit-metadata, mint, burn) and the properties of their
    outcome reporting.

    The operations mutate two objects they receive by pointer, the random
    source [r *rand.Rand] and the application [app *baseapp.BaseApp]; both
    live in a [World] that is threaded through a small state monad, next to
    the log of the calls made on the collaborators.  An invocation either
    returns its triple or panics, and the monad carries which. *)

From Stdlib Require Import ZArith NArith List String Ascii Bool Lia.
From Stdlib Require Import Strings.Byte.
Import ListNotations.
Open Scope string_scope.
Open Scope Z_scope.

Set Implicit Arguments.

(* ================================================================== *)
(** ** Values of the SDK that the operations handle *)

(** [sdk.AccAddress] is a byte slice; a nil slice and a slice of length zero
    are both empty. *)
Definition AccAddress := list byte.

Definition Empty (aa : AccAddress) : bool :=
  match aa with
  | [] => true
  | _ :: _ => false
  end.

Fixpoint Equals (a b : AccAddress) : bool :=
  match a, b with
  | [], [] => true
  | x :: a', y :: b' => Byte.eqb x y && Equals a' b'
  | _, _ => false
  end.

(** [sdk.Coin] and [sdk.Coins]. *)
Record Coin := NewCoin { Denom : string; Amount : Z }.
Definition Coins := list Coin.

(** [crypto.PrivKey], by its bytes. *)
Definition PrivKey := list byte.

(** The logical block time, as seconds. *)
Definition Time := Z.

(** Go's [error] interface: a nil error is [None], any other error is
    [Some e], and [e] answers [Error()] with its text. *)
Record error := errors_New { Error : string }.

(** [simulation.Account]: the fields the operations read. *)
Record Account := { Acc_PrivKey : PrivKey; Address : AccAddress }.

(** The zero value [Account{}]. *)
Definition Account_zero : Account := {| Acc_PrivKey := []; Address := [] |}.

(** The account interface of the auth module, by the three methods called.
    The interface value may be nil: see [GetAccount]. *)
Record AuthAccount := {
  SpendableCoins : Time -> Coins;
  GetAccountNumber : N;
  GetSequence : N
}.

(** Modelled from the spec: the four message types of
    [x/nft/internal/types] are outside [operations.go].  Section 3 gives their
    fields: "Transfer: sender, recipient, denom, id", "EditMetadata: owner,
    id, denom, new token-URI", "Mint: sender, recipient, new id, new denom,
    token-URI", "Burn: owner, id, denom".  The values are built by the
    constructors [NewMsgTransferNFT], ... below. *)
Inductive Msg :=
| MsgTransferNFT (sender recipient : AccAddress) (denom id : string)
| MsgEditNFTMetadata (owner : AccAddress) (id denom tokenURI : string)
| MsgMintNFT (sender recipient : AccAddress) (id denom tokenURI : string)
| MsgBurnNFT (owner : AccAddress) (id denom : string).

(** The address that acts in (and signs) a request. *)
Definition signer (m : Msg) : AccAddress :=
  match m with
  | MsgTransferNFT s _ _ _ => s
  | MsgEditNFTMetadata o _ _ _ => o
  | MsgMintNFT s _ _ _ _ => s
  | MsgBurnNFT o _ _ => o
  end.

(** Modelled from the spec: the transaction type and [helpers.GenTx] are
    outside [operations.go].  Section 4.4 has the driver "package the Request plus the
    resolver's fee/sequence/account-number into a signed transaction addressed
    to the current chain/session identifier" ([BuildAndSign(message, fee,
    chainID, accountNumber, sequence, credential)]); the transaction is the
    package of these six arguments. *)
Record StdTx := GenTx {
  Msgs : list Msg;
  Fee : Coins;
  ChainID : string;
  AccNums : list N;
  Seqs : list N;
  Signers : list PrivKey
}.

(** Modelled from the spec: the engine's result type is outside
    [operations.go].
    Section 6 gives [Execute(signedTransaction) -> (ok: bool, log: string)]. *)
Record Result := { IsOK : bool; Log : string }.

(** Modelled from the spec: [simulation.OperationMsg] and its two
    constructors [NoOpMsg] and [NewOperationMsg] are outside [operations.go]; the
    operations build their report with these two and nothing else. *)
Inductive OperationMsg :=
| NoOpMsg (route : string)
| NewOperationMsg (msg : Msg) (ok : bool) (comment : string).

(** [simulation.FutureOperation]; the operations only ever return nil. *)
Record FutureOperation := { BlockHeight : Z }.

(** What a [simulation.Operation] returns. *)
Definition Return : Type := OperationMsg * list FutureOperation * option error.

(* ================================================================== *)
(** ** The collaborators *)

(** The functions and types the operations call and that live outside
    [operations.go].  Each is taken as it is called: a function of its
    arguments (and of the random source or the application, when it receives
    the pointer).  Where a call panics is said at the call: [RandomAcc] on an
    empty list of accounts ([call_RandomAcc]), and a method of the nil
    account ([deref]). *)
Class Collaborators := {
  Rand : Type;
  sdk_Context : Type;
  Keeper : Type;
  BaseApp : Type;
  (** [types.ModuleName] *)
  ModuleName : string;
  (** [ctx.BlockTime()] *)
  BlockTime : sdk_Context -> Time;
  (** [AccAddress.String()], which [%s] prints *)
  AccAddress_String : AccAddress -> string;
  (** [getRandomNFTFromOwner(ctx, k, r)] *)
  getRandomNFTFromOwner :
    sdk_Context -> Keeper -> Rand -> (AccAddress * string * string) * Rand;
  (** [strings.TrimSpace], which the constructors of the messages apply *)
  TrimSpace : string -> string;
  (** [simulation.RandomAcc(r, accs)], on a list that is not empty *)
  RandomAcc : Rand -> list Account -> (Account * Z) * Rand;
  (** [simulation.RandomFees(r, ctx, spendableCoins)] *)
  RandomFees : Rand -> sdk_Context -> Coins -> (Coins * option error) * Rand;
  (** [simulation.RandStringOfLength(r, n)] *)
  RandStringOfLength : Rand -> Z -> string * Rand;
  (** [app.Deliver(tx)] *)
  Deliver : BaseApp -> StdTx -> Result * BaseApp
}.

(** [types.AccountKeeper], the interface the operations receive as [ak].
    [GetAccount] returns the account interface, which is nil ([None]) when
    the keeper holds no account for the address. *)
Record AccountKeeper `{Collaborators} := {
  GetAccount : sdk_Context -> AccAddress -> option AuthAccount
}.

(** The constructors of the messages, as [operations.go] calls them: they
    keep the addresses and trim the white space around every string. *)
Definition NewMsgTransferNFT `{Collaborators}
    (sender recipient : AccAddress) (denom id : string) : Msg :=
  MsgTransferNFT sender recipient (TrimSpace denom) (TrimSpace id).

Definition NewMsgEditNFTMetadata `{Collaborators}
    (owner : AccAddress) (id denom tokenURI : string) : Msg :=
  MsgEditNFTMetadata owner (TrimSpace id) (TrimSpace denom)
                     (TrimSpace tokenURI).

Definition NewMsgMintNFT `{Collaborators}
    (sender recipient : AccAddress) (id denom tokenURI : string) : Msg :=
  MsgMintNFT sender recipient (TrimSpace id) (TrimSpace denom)
             (TrimSpace tokenURI).

Definition NewMsgBurnNFT `{Collaborators}
    (owner : AccAddress) (id denom : string) : Msg :=
  MsgBurnNFT owner (TrimSpace id) (TrimSpace denom).

(** Modelled from the spec: [simulation.FindAccount] is outside
    [operations.go].
    Section 7 has the acting address "not found among known accounts": the
    first account of [accs] with that address and true, or the zero account
    and false. *)
Fixpoint FindAccount (accs : list Account) (address : AccAddress)
  : Account * bool :=
  match accs with
  | [] => (Account_zero, false)
  | acc :: rest =>
      if Equals (Address acc) address then (acc, true)
      else FindAccount rest address
  end.

(* ================================================================== *)
(** ** The state of an invocation *)

(** The two panics of an invocation: "invalid argument to Intn", raised by
    [r.Intn(0)], and the runtime error of a method called on a nil
    interface. *)
Inductive panic :=
| invalid_argument_to_Intn
| nil_pointer_dereference.

(** How a call ends: it returns a value or it panics. *)
Inductive result (A : Type) :=
| Returned (a : A)
| Panicked (p : panic).
Arguments Returned {A} a.
Arguments Panicked {A} p.


Section Invocation.
Context `{C : Collaborators}.

(** One entry per call on a collaborator that receives the random source or
    the application, with what it returned. *)
Inductive Event :=
| EvRandomNFT (owner : AccAddress) (denom id : string)
| EvRandomAcc (accs : list Account) (acc : Account)
| EvRandomFees (spendable : Coins) (fees : Coins) (err : option error)
| EvRandString (n : Z) (s : string)
| EvDeliver (tx : StdTx) (res : Result).

Record World := {
  rng : Rand;
  app : BaseApp;
  trace : list Event
}.

Definition M (A : Type) : Type := World -> result A * World.

Definition ret {A} (a : A) : M A := fun w => (Returned a, w).

Definition raise {A} (p : panic) : M A := fun w => (Panicked p, w).

(** A panic ends the invocation where it is raised, in the state reached. *)
Definition bind {A B} (m : M A) (f : A -> M B) : M B :=
  fun w =>
    match m w with
    | (Returned a, w') => f a w'
    | (Panicked p, w') => (Panicked p, w')
    end.

Definition with_rng {A} (call : Rand -> A * Rand) (ev : A -> Event) : M A :=
  fun w =>
    let (a, r') := call (rng w) in
    (Returned a, {| rng := r'; app := app w; trace := trace w ++ [ev a] |}).

Definition with_app {A} (call : BaseApp -> A * BaseApp) (ev : A -> Event)
  : M A :=
  fun w =>
    let (a, app') := call (app w) in
    (Returned a, {| rng := rng w; app := app'; trace := trace w ++ [ev a] |}).

End Invocation.

Notation "x <- m ;; k" := (bind m (fun x => k))
  (at level 61, m at next level, right associativity).
Notation "' pat <- m ;; k" := (bind m (fun x => match x with pat => k end))
  (at level 61, pat pattern, m at next level, right associativity).

(* ================================================================== *)
(** ** The operations *)

Section Operations.
Context `{C : Collaborators}.

(** The calls on the collaborators, as actions on the [World]. *)
Definition call_getRandomNFTFromOwner (ctx : sdk_Context) (k : Keeper)
  : M (AccAddress * string * string) :=
  with_rng (getRandomNFTFromOwner ctx k)
           (fun '(ownerAddr, denom, nftID) => EvRandomNFT ownerAddr denom nftID).

(** [RandomAcc] draws a position with [r.Intn(len(accs))], which panics on
    an empty list before anything is drawn. *)
Definition call_RandomAcc (accs : list Account) : M (Account * Z) :=
  match accs with
  | [] => raise invalid_argument_to_Intn
  | _ :: _ =>
      with_rng (fun r => RandomAcc r accs)
               (fun res => EvRandomAcc accs (fst res))
  end.

(** The account [ak.GetAccount] returned, at its first method call
    ([account.SpendableCoins]): a nil account panics there. *)
Definition deref (account : option AuthAccount) : M AuthAccount :=
  match account with
  | Some acc => ret acc
  | None => raise nil_pointer_dereference
  end.

Definition call_RandomFees (ctx : sdk_Context) (spendable : Coins)
  : M (Coins * option error) :=
  with_rng (fun r => RandomFees r ctx spendable)
           (fun res => EvRandomFees spendable (fst res) (snd res)).

Definition call_RandStringOfLength (n : Z) : M string :=
  with_rng (fun r => RandStringOfLength r n) (EvRandString n).

Definition call_Deliver (tx : StdTx) : M Result :=
  with_app (fun a => Deliver a tx) (EvDeliver tx).

(** [fmt.Errorf("account %s not found", ownerAddr)] *)
Definition account_not_found (ownerAddr : AccAddress) : error :=
  errors_New ("account " ++ AccAddress_String ownerAddr ++ " not found").

(** [simulation.Operation]: the random source and the application are in the
    [World]. *)
Definition Operation : Type :=
  sdk_Context -> list Account -> string -> M Return.

(** [SimulateMsgTransferNFT] simulates the transfer of an NFT. *)
Definition SimulateMsgTransferNFT (ak : AccountKeeper) (k : Keeper)
  : Operation :=
  fun ctx accs chainID =>
    '(ownerAddr, denom, nftID) <- call_getRandomNFTFromOwner ctx k ;;
    if Empty ownerAddr then
      ret (NoOpMsg ModuleName, [], None)
    else
      '(recipientAccount, _) <- call_RandomAcc accs ;;
      let '(simAccount, found) := FindAccount accs ownerAddr in
      if negb found then
        ret (NoOpMsg ModuleName, [], Some (account_not_found ownerAddr))
      else
        account <- deref (GetAccount ak ctx (Address simAccount)) ;;
        '(fees, err) <-
          call_RandomFees ctx (SpendableCoins account (BlockTime ctx)) ;;
        match err with
        | Some e => ret (NoOpMsg ModuleName, [], Some e)
        | None =>
            let msg :=
              NewMsgTransferNFT
                ownerAddr (* sender *)
                (Address recipientAccount)
                denom
                nftID in
            let tx :=
              GenTx [msg] fees chainID
                    [GetAccountNumber account]
                    [GetSequence account]
                    [Acc_PrivKey simAccount] in
            res <- call_Deliver tx ;;
            if negb (IsOK res) then
              ret (NoOpMsg ModuleName, [], Some (errors_New (Log res)))
            else
              ret (NewOperationMsg msg true "", [], None)
        end.

(** [SimulateMsgEditNFTMetadata] simulates an edit metadata transaction. *)
Definition SimulateMsgEditNFTMetadata (ak : AccountKeeper) (k : Keeper)
  : Operation :=
  fun ctx accs chainID =>
    '(ownerAddr, denom, nftID) <- call_getRandomNFTFromOwner ctx k ;;
    if Empty ownerAddr then
      ret (NoOpMsg ModuleName, [], None)
    else
      let '(simAccount, found) := FindAccount accs ownerAddr in
      if negb found then
        ret (NoOpMsg ModuleName, [], Some (account_not_found ownerAddr))
      else
        account <- deref (GetAccount ak ctx (Address simAccount)) ;;
        '(fees, err) <-
          call_RandomFees ctx (SpendableCoins account (BlockTime ctx)) ;;
        match err with
        | Some e => ret (NoOpMsg ModuleName, [], Some e)
        | None =>
            tokenURI <- call_RandStringOfLength 45 ;;
            let msg :=
              NewMsgEditNFTMetadata ownerAddr nftID denom tokenURI in
            let tx :=
              GenTx [msg] fees chainID
                    [GetAccountNumber account]
                    [GetSequence account]
                    [Acc_PrivKey simAccount] in
            res <- call_Deliver tx ;;
            if negb (IsOK res) then
              ret (NoOpMsg ModuleName, [], Some (errors_New (Log res)))
            else
              ret (NewOperationMsg msg true "", [], None)
        end.

(** [SimulateMsgMintNFT] simulates a mint of an NFT.  The three strings are
    drawn in the order of the arguments: id, denom, token URI. *)
Definition SimulateMsgMintNFT (ak : AccountKeeper) (k : Keeper)
  : Operation :=
  fun ctx accs chainID =>
    '(simAccount, _) <- call_RandomAcc accs ;;
    '(recipientAccount, _) <- call_RandomAcc accs ;;
    account <- deref (GetAccount ak ctx (Address simAccount)) ;;
    '(fees, err) <-
      call_RandomFees ctx (SpendableCoins account (BlockTime ctx)) ;;
    match err with
    | Some e => ret (NoOpMsg ModuleName, [], Some e)
    | None =>
        nftID <- call_RandStringOfLength 10 ;;
        denom <- call_RandStringOfLength 10 ;;
        tokenURI <- call_RandStringOfLength 45 ;;
        let msg :=
          NewMsgMintNFT
            (Address simAccount)       (* sender *)
            (Address recipientAccount) (* recipient *)
            nftID denom tokenURI in
        let tx :=
          GenTx [msg] fees chainID
                [GetAccountNumber account]
                [GetSequence account]
                [Acc_PrivKey simAccount] in
        res <- call_Deliver tx ;;
        if negb (IsOK res) then
          ret (NoOpMsg ModuleName, [], Some (errors_New (Log res)))
        else
          ret (NewOperationMsg msg true "", [], None)
    end.

(** [SimulateMsgBurnNFT] simulates a burn of an existing NFT. *)
Definition SimulateMsgBurnNFT (ak : AccountKeeper) (k : Keeper)
  : Operation :=
  fun ctx accs chainID =>
    '(ownerAddr, denom, nftID) <- call_getRandomNFTFromOwner ctx k ;;
    if Empty ownerAddr then
      ret (NoOpMsg ModuleName, [], None)
    else
      let '(simAccount, found) := FindAccount accs ownerAddr in
      if negb found then
        ret (NoOpMsg ModuleName, [], Some (account_not_found ownerAddr))
      else
        account <- deref (GetAccount ak ctx (Address simAccount)) ;;
        '(fees, err) <-
          call_RandomFees ctx (SpendableCoins account (BlockTime ctx)) ;;
        match err with
        | Some e => ret (NoOpMsg ModuleName, [], Some e)
        | None =>
            let msg := NewMsgBurnNFT ownerAddr nftID denom in
            let tx :=
              GenTx [msg] fees chainID
                    [GetAccountNumber account]
                    [GetSequence account]
                    [Acc_PrivKey simAccount] in
            res <- call_Deliver tx ;;
            if negb (IsOK res) then
              ret (NoOpMsg ModuleName, [], Some (errors_New (Log res)))
            else
              ret (NewOperationMsg msg true "", [], None)
        end.

(** The four operation kinds. *)
Inductive OpKind := Transfer | EditMetadata | Mint | Burn.

Definition Simulate (kind : OpKind) (ak : AccountKeeper) (k : Keeper)
  : Operation :=
  match kind with
  | Transfer => SimulateMsgTransferNFT ak k
  | EditMetadata => SimulateMsgEditNFTMetadata ak k
  | Mint => SimulateMsgMintNFT ak k
  | Burn => SimulateMsgBurnNFT ak k
  end.

(** One invocation by the harness: the operation is called with the random
    source [r] and the application [a], and the log starts empty.  It gives
    how the call ended and the state it left. *)
Definition invoke (op : Operation) (r : Rand) (a : BaseApp)
    (ctx : sdk_Context) (accs : list Account) (chainID : string)
  : result Return * World :=
  op ctx accs chainID {| rng := r; app := a; trace := [] |}.

End Operations.

(* ================================================================== *)
(** ** Reading a run *)

(** The outcome the harness sees (section 3 of the specification): no
    eligible subject, a submitted request, or a failure with its reason.  A
    returned triple is read as the one outcome it stands for: a non-nil error
    is a failure, the no-op message with a nil error is a no-op, and a
    message flagged ok with a nil error is a success.  An invocation that
    panics hands no outcome to the harness. *)
Inductive Outcome :=
| NoOp
| Success (request : Msg)
| Failure (reason : error).

Definition outcome_of (res : result Return) : option Outcome :=
  match res with
  | Returned (NoOpMsg _, [], None) => Some NoOp
  | Returned (NoOpMsg _, [], Some e) => Some (Failure e)
  | Returned (NewOperationMsg msg true _, [], None) => Some (Success msg)
  | _ => None
  end.

(** The transactions handed to the engine in a log, with its answers. *)
Fixpoint deliveries (t : list Event) : list (StdTx * Result) :=
  match t with
  | [] => []
  | EvDeliver tx res :: t' => (tx, res) :: deliveries t'
  | _ :: t' => deliveries t'
  end.

(** The requests built in a run: every request the operations build is
    packaged into a transaction and handed to the engine at once. *)
Definition requests (t : list Event) : list Msg :=
  flat_map (fun d => Msgs (fst d)) (deliveries t).

(** The calls on the NFT sampler in a log. *)
Fixpoint samplings (t : list Event) : list (AccAddress * string * string) :=
  match t with
  | [] => []
  | EvRandomNFT o d i :: t' => (o, d, i) :: samplings t'
  | _ :: t' => samplings t'
  end.

(** The calls of a log that draw from the random source: all but the calls
    on the engine. *)
Definition draws (t : list Event) : list Event :=
  filter (fun e => match e with EvDeliver _ _ => false | _ => true end) t.

(** Which collaborator an entry of the log is a call on. *)
Inductive Call :=
| CallRandomNFT
| CallRandomAcc
| CallRandomFees
| CallRandString (n : Z)
| CallDeliver.

Definition call_of (e : Event) : Call :=
  match e with
  | EvRandomNFT _ _ _ => CallRandomNFT
  | EvRandomAcc _ _ => CallRandomAcc
  | EvRandomFees _ _ _ => CallRandomFees
  | EvRandString n _ => CallRandString n
  | EvDeliver _ _ => CallDeliver
  end.

(** The calls of each operation in the order of its body, when no branch
    returns early. *)
Definition pipeline (kind : OpKind) : list Call :=
  match kind with
  | Transfer =>
      [CallRandomNFT; CallRandomAcc; CallRandomFees; CallDeliver]
  | EditMetadata =>
      [CallRandomNFT; CallRandomFees; CallRandString 45; CallDeliver]
  | Mint =>
      [CallRandomAcc; CallRandomAcc; CallRandomFees;
       CallRandString 10; CallRandString 10; CallRandString 45; CallDeliver]
  | Burn =>
      [CallRandomNFT; CallRandomFees; CallDeliver]
  end.

(** [Coins.AmountOf] and [Coins.IsAllLTE]: no coin of [fees] is larger than
    what [balance] holds of its denomination. *)
Fixpoint AmountOf (denom : string) (coins : Coins) : Z :=
  match coins with
  | [] => 0
  | c :: rest =>
      if String.eqb (Denom c) denom then Amount c else AmountOf denom rest
  end.

Definition IsAllLTE (fees balance : Coins) : bool :=
  forallb (fun c => Amount c <=? AmountOf (Denom c) balance) fees.

Section Specification.
Context `{C : Collaborators}.

(** Section 4.2 and 8: a fee that is resolved is affordable from the
    spendable balance it was resolved from. *)
Definition RandomFees_affordable : Prop :=
  forall r ctx spendable fees r',
    RandomFees r ctx spendable = ((fees, None), r') ->
    IsAllLTE fees spendable = true.

(** [RandStringOfLength(r, n)] is a string of length [n]. *)
Definition RandStringOfLength_exact : Prop :=
  forall r n, 0 <= n ->
    Z.of_nat (String.length (fst (RandStringOfLength r n))) = n.

(** The generated strings have no white space around them: the constructors
    of the messages keep them whole. *)
Definition RandStringOfLength_trimmed : Prop :=
  forall r n,
    TrimSpace (fst (RandStringOfLength r n)) = fst (RandStringOfLength r n).

(** Section 4.1: [RandomAcc] picks among the accounts it is given. *)
Definition RandomAcc_picks_member : Prop :=
  forall r accs, accs <> [] -> In (fst (fst (RandomAcc r accs))) accs.

(** The keeper holds an account for every simulation account. *)
Definition keeper_knows (ak : AccountKeeper) (ctx : sdk_Context)
    (accs : list Account) : Prop :=
  forall acc, In acc accs -> GetAccount ak ctx (Address acc) <> None.




End Specification.

(* ================================================================== *)
(** ** A reference instance of the collaborators *)

(** The collaborators as the specification describes them, over a random
    source that is the tape of its future draws, a ledger that lists the
    owners with their NFTs and the balances, and an engine that applies the
    transactions addressed to its chain. *)
Module Reference.

Definition Rand := list Z.

Definition draw (r : Rand) : Z * Rand :=
  match r with
  | [] => (0, [])
  | x :: r' => (x, r')
  end.

(** [r.Intn(n)]: a draw in [0, n). *)
Definition Intn (r : Rand) (n : Z) : Z * Rand :=
  let (x, r') := draw r in (x mod n, r').

Record Owner := {
  Owner_Address : AccAddress;
  NFTs : list (string * string)   (* denom, id *)
}.

Record Ledger := {
  time : Time;
  owners : list Owner;
  balances : list (AccAddress * Coins)
}.

Record Engine := {
  chain : string;
  applied : list StdTx
}.

(** Modelled from the spec: [getRandomNFTFromOwner] is outside
    [operations.go].
    Section 4.1: "enumerate owners with at least one NFT, pick one uniformly
    at random, then pick one of that owner's NFTs uniformly at random"; "if
    the ledger currently holds zero NFTs, return the empty sentinel". *)
Definition getRandomNFTFromOwner (ctx : Ledger) (k : unit) (r : Rand)
  : (AccAddress * string * string) * Rand :=
  let eligible :=
    filter (fun o => negb (Nat.eqb (List.length (NFTs o)) 0)) (owners ctx) in
  match eligible with
  | [] => (([], "", ""), r)
  | _ :: _ =>
      let (i, r1) := Intn r (Z.of_nat (List.length eligible)) in
      let owner := nth (Z.to_nat i) eligible (Build_Owner [] []) in
      let (j, r2) := Intn r1 (Z.of_nat (List.length (NFTs owner))) in
      let nft := nth (Z.to_nat j) (NFTs owner) ("", "") in
      ((Owner_Address owner, fst nft, snd nft), r2)
  end.

(** Modelled from the spec: [simulation.RandomAcc] is outside
    [operations.go].
    Section 4.1: pick "(uniformly) from the full set of known simulation
    accounts": the account at a position drawn among all positions. *)
Definition RandomAcc (r : Rand) (accs : list Account)
  : (Account * Z) * Rand :=
  let (idx, r') := Intn r (Z.of_nat (List.length accs)) in
  ((nth (Z.to_nat idx) accs Account_zero, idx), r').

(** Modelled from the spec: [simulation.RandomFees] is outside
    [operations.go].
    Section 4.2: "compute a random fee affordable from its current spendable
    balance"; "if no affordable fee combination exists (e.g. zero balance),
    the resolver fails with an InsufficientFunds-class error". *)
Definition RandomFees (r : Rand) (ctx : Ledger) (spendable : Coins)
  : (Coins * option error) * Rand :=
  let payable :=
    filter (fun c => 0 <? AmountOf (Denom c) spendable) spendable in
  match payable with
  | [] => (([], Some (errors_New "insufficient funds")), r)
  | _ :: _ =>
      let (i, r1) := Intn r (Z.of_nat (List.length payable)) in
      let coin := nth (Z.to_nat i) payable (NewCoin "" 0) in
      let (a, r2) := Intn r1 (AmountOf (Denom coin) spendable) in
      (([NewCoin (Denom coin) (a + 1)], None), r2)
  end.

Definition letters : list ascii :=
  list_ascii_of_string
    "abcdefghijklmnopqrstuvwxyzABCDEFGHIJKLMNOPQRSTUVWXYZ0123456789".

Fixpoint rand_letters (n : nat) (r : Rand) : string * Rand :=
  match n with
  | O => ("", r)
  | S n' =>
      let (i, r1) := Intn r 62 in
      let (s, r2) := rand_letters n' r1 in
      (String (nth (Z.to_nat i) letters "a"%char) s, r2)
  end.

(** Modelled from the spec: [simulation.RandStringOfLength] is outside
    [operations.go].  Section 4.3: "bounded-length random string generation"; the
    string has the length asked for. *)
Definition RandStringOfLength (r : Rand) (n : Z) : string * Rand :=
  rand_letters (Z.to_nat n) r.

(** A stand-in for the engine, which the specification leaves out of scope:
    it applies a transaction addressed to its chain and rejects any other. *)
Definition Deliver (a : Engine) (tx : StdTx) : Result * Engine :=
  if String.eqb (ChainID tx) (chain a) then
    ({| IsOK := true; Log := "" |},
     {| chain := chain a; applied := applied a ++ [tx] |})
  else
    ({| IsOK := false; Log := "unauthorized: wrong chain id" |}, a).

(** [strings.TrimSpace] on ASCII text: the white space is tab, line feed,
    vertical tab, form feed, carriage return and space. *)
Definition is_space (c : ascii) : bool :=
  let n := nat_of_ascii c in
  ((9 <=? n)%nat && (n <=? 13)%nat) || (n =? 32)%nat.

Fixpoint trim_left (s : string) : string :=
  match s with
  | EmptyString => EmptyString
  | String c s' => if is_space c then trim_left s' else s
  end.

Fixpoint trim_right (s : string) : string :=
  match s with
  | EmptyString => EmptyString
  | String c s' =>
      match trim_right s' with
      | EmptyString => if is_space c then EmptyString else String c EmptyString
      | t => String c t
      end
  end.

Definition TrimSpace (s : string) : string := trim_right (trim_left s).

(** The printed form of an address: one letter per byte. *)
Definition AccAddress_String (aa : AccAddress) : string :=
  string_of_list_ascii (map ascii_of_byte aa).

Definition collaborators : Collaborators :=
  @Build_Collaborators
    Rand Ledger unit Engine
    "nft" time AccAddress_String
    getRandomNFTFromOwner TrimSpace RandomAcc RandomFees RandStringOfLength
    Deliver.

(** The account keeper over the balances of the ledger: it holds an account
    for the addresses that have an entry, and answers nil for the others. *)
Fixpoint balance_of (bs : list (AccAddress * Coins)) (addr : AccAddress)
  : option Coins :=
  match bs with
  | [] => None
  | (a, c) :: rest => if Equals a addr then Some c else balance_of rest addr
  end.

Definition ak : @AccountKeeper collaborators := {|
  GetAccount := fun (ctx : @sdk_Context collaborators) addr =>
    match balance_of (balances ctx) addr with
    | Some coins =>
        Some {| SpendableCoins := fun _ => coins;
                GetAccountNumber := 0%N;
                GetSequence := 0%N |}
    | None => None
    end
|}.

(** Two accounts, A and B, and the ledger of the scenarios of section 8. *)
Definition addrA : AccAddress := [x41].
Definition addrB : AccAddress := [x42].
Definition accA : Account := {| Acc_PrivKey := [x01]; Address := addrA |}.
Definition accB : Account := {| Acc_PrivKey := [x02]; Address := addrB |}.
Definition accs : list Account := [accA; accB].

Definition empty_ledger : Ledger := {|
  time := 0;
  owners := [];
  balances := [(addrA, [NewCoin "stake" 100]); (addrB, [])]
|}.

Definition one_nft_ledger : Ledger := {|
  time := 0;
  owners := [ {| Owner_Address := addrA; NFTs := [("collectible", "001")] |} ];
  balances := [(addrA, [NewCoin "stake" 100]); (addrB, [])]
|}.

(** A ledger whose only NFT belongs to an address that no account has. *)
Definition addrC : AccAddress := [x43].

Definition stranger_ledger : Ledger := {|
  time := 0;
  owners := [ {| Owner_Address := addrC; NFTs := [("collectible", "001")] |} ];
  balances := [(addrA, [NewCoin "stake" 100]); (addrB, [])]
|}.

Definition engine : Engine := {| chain := "sim"; applied := [] |}.

(** The ledger with one NFT whose denom and id are stored with white space
    around them. *)
Definition spaced_ledger : Ledger := {|
  time := 0;
  owners := [ {| Owner_Address := addrA;
                 NFTs := [("collectible ", " 001")] |} ];
  balances := [(addrA, [NewCoin "stake" 100]); (addrB, [])]
|}.

(** A simulation account whose address the keeper holds no account for. *)
Definition accC : Account := {| Acc_PrivKey := [x03]; Address := addrC |}.

(** The transaction that transfers the NFT of A to B for a fee of 6. *)
Definition transfer_tx (chainID : string) : StdTx :=
  GenTx [MsgTransferNFT addrA addrB "collectible" "001"]
        [NewCoin "stake" 6] chainID [0%N] [0%N] [[x01]].

(** One invocation on the reference instance, with the accounts [accs0]. *)
Definition run_with (accs0 : list Account) (kind : OpKind) (ctx : Ledger)
    (r : Rand) (chainID : string)
  : result Return * @World collaborators :=
  @invoke collaborators (Simulate kind ak tt) r engine ctx accs0 chainID.

(** One invocation on the reference instance, with the accounts A and B. *)
Definition run (kind : OpKind) (ctx : Ledger) (r : Rand) (chainID : string)
  : result Return * @World collaborators :=
  run_with accs kind ctx r chainID.



End Reference.

(* ================================================================== *)
(** ** Lemmas on the helpers *)

Lemma Equals_eq (a b : AccAddress) : Equals a b = true -> a = b.
Proof.
  revert b; induction a as [|x a IH]; intros [|y b]; simpl; try discriminate.
  - reflexivity.
  - intros H. apply andb_true_iff in H as [Hxy Hab].
    apply Byte.byte_dec_bl in Hxy. f_equal; [exact Hxy | exact (IH _ Hab)].
Qed.

Lemma FindAccount_found accs address acc :
  FindAccount accs address = (acc, true) ->
  In acc accs /\ Address acc = address.
Proof.
  induction accs as [|a rest IH]; simpl.
  - discriminate.
  - destruct (Equals (Address a) address) eqn:E.
    + intros H; inversion H; subst. split; [now left | now apply Equals_eq].
    + intros H. destruct (IH H) as [Hin Ha]. split; [now right | exact Ha].
Qed.

Lemma FindAccount_absent accs address :
  (forall acc, In acc accs -> Address acc <> address) ->
  FindAccount accs address = (Account_zero, false).
Proof.
  induction accs as [|a rest IH]; simpl; intros H.
  - reflexivity.
  - destruct (Equals (Address a) address) eqn:E.
    + apply Equals_eq in E. exfalso. apply (H a); [now left | exact E].
    + apply IH. intros acc Hin. apply H. now right.
Qed.

(** The lookup is reasoned about through the two lemmas above. *)
Arguments FindAccount : simpl never.

(** Unfolding an invocation down to the calls on the collaborators, and
    splitting it along the branches the operation takes. *)
Ltac unfold_operation :=
  unfold invoke, Simulate,
    SimulateMsgTransferNFT, SimulateMsgEditNFTMetadata,
    SimulateMsgMintNFT, SimulateMsgBurnNFT,
    call_getRandomNFTFromOwner, call_RandomAcc, call_RandomFees,
    call_RandStringOfLength, call_Deliver, deref,
    with_rng, with_app, bind, ret, raise;
  simpl.

Ltac split_branches :=
  repeat match goal with
  | |- context [match ?x with _ => _ end] =>
      lazymatch x with
      | context [match _ with _ => _ end] => fail
      | _ => first [ is_var x; destruct x | destruct x eqn:? ]; simpl
      end
  end.

Ltac run_operation := unfold_operation; split_branches.

Ltac empty_address :=
  repeat match goal with
  | H : Empty ?x = true |- _ =>
      destruct x; [clear H | discriminate H]
  end.

Ltac in_trace :=
  repeat match goal with
  | H : False |- _ => contradiction H
  | H : _ \/ _ |- _ => destruct H
  | H : In _ _ |- _ => simpl in H
  | H : @eq Event _ _ |- _ => first [discriminate H | inversion H; subst; clear H]
  | H : @eq (_ * _) (_, _) (_, _) |- _ => inversion H; subst; clear H
  end.

(** The account found for an address has that address. *)
Ltac found_account :=
  repeat match goal with
  | Hn : negb ?found = false |- _ =>
      apply negb_false_iff in Hn; subst found
  | E : FindAccount _ _ = (_, true) |- _ =>
      let HA := fresh "HA" in
      pose proof (FindAccount_found _ _ E) as [_ HA];
      rewrite <- HA in *; clear HA; revert E
  end; intros.

(** Two answers of one call are one answer. *)
Ltac reconcile :=
  found_account;
  repeat match goal with
  | E1 : ?t = ?x, E2 : ?t = ?y |- _ =>
      lazymatch x with
      | y => fail
      | _ => rewrite E1 in E2; inversion E2; subst; clear E2
      end
  end.

(* ================================================================== *)
(** ** Properties of the operations *)

Section Properties.
Context `{C : Collaborators}.
Variables (ak : AccountKeeper) (k : Keeper).
Variables (r : Rand) (a : BaseApp) (ctx : sdk_Context).
Variables (accs : list Account) (chainID : string).

(** C1. When the sampler returns the empty address (no NFT has an owner),
    Transfer, EditMetadata and Burn return the no-op message with a nil
    error; the sampler is the only collaborator called, so no request is
    built and the engine is not called. *)
Theorem no_owner_is_noop (kind : OpKind) :
  kind <> Mint ->
  Empty (fst (fst (fst (getRandomNFTFromOwner ctx k r)))) = true ->
  let run := invoke (Simulate kind ak k) r a ctx accs chainID in
  fst run = Returned (NoOpMsg ModuleName, [], None) /\
  outcome_of (fst run) = Some NoOp /\
  (exists denom id, trace (snd run) = [EvRandomNFT [] denom id]) /\
  requests (trace (snd run)) = [] /\
  deliveries (trace (snd run)) = [] /\
  app (snd run) = a.
Proof.
  destruct kind; intros Hk; try congruence; clear Hk;
    run_operation; intros He; try discriminate; empty_address; eauto 10.
Qed.

(** C2. In every invocation of any of the four operations that hands a
    transaction to the engine, the transaction carries the one request built;
    an answer flagged ok gives the success message carrying that request, and
    any other answer gives a failure whose reason is the text of the engine's
    log, unchanged. *)
Theorem delivery_classified (kind : OpKind) (tx : StdTx) (res : Result) :
  let run := invoke (Simulate kind ak k) r a ctx accs chainID in
  In (EvDeliver tx res) (trace (snd run)) ->
  res = fst (Deliver a tx) /\
  exists msg, Msgs tx = [msg] /\
    (IsOK res = true ->
       fst run = Returned (NewOperationMsg msg true "", [], None) /\
       outcome_of (fst run) = Some (Success msg)) /\
    (IsOK res = false ->
       exists reason,
         fst run = Returned (NoOpMsg ModuleName, [], Some reason) /\
         outcome_of (fst run) = Some (Failure reason) /\
         Error reason = Log res).
Proof.
  destruct kind; run_operation; intros H; in_trace.
  all: split;
    [ match goal with E : Deliver _ _ = _ |- _ => now rewrite E end | ].
  all: eexists; split; [reflexivity | ].
  all: split; intros Hok; rewrite Hok in *; simpl in *;
    try discriminate; eauto.
Qed.

(** C3. In every invocation where fee resolution fails, the operation
    returns a failure carrying that very error; it returns (no crash), the
    engine is not called and the application is left as it was. *)
Theorem fee_failure_propagates (kind : OpKind)
    (spendable fees : Coins) (e : error) :
  let run := invoke (Simulate kind ak k) r a ctx accs chainID in
  In (EvRandomFees spendable fees (Some e)) (trace (snd run)) ->
  fst run = Returned (NoOpMsg ModuleName, [], Some e) /\
  outcome_of (fst run) = Some (Failure e) /\
  requests (trace (snd run)) = [] /\
  deliveries (trace (snd run)) = [] /\
  app (snd run) = a.
Proof.
  destruct kind; run_operation; intros H; in_trace; simpl in *;
    try discriminate; subst; auto.
Qed.


(** C5. In every invocation of any operation kind, the fee of the
    transaction handed to the engine is the one resolved from the spendable
    coins, at the block time of the context, of the account that acts in the
    request; with a fee resolver that only returns affordable fees, it never
    exceeds that balance. *)
Theorem fee_within_spendable (kind : OpKind) (tx : StdTx) (res : Result) :
  let run := invoke (Simulate kind ak k) r a ctx accs chainID in
  RandomFees_affordable ->
  In (EvDeliver tx res) (trace (snd run)) ->
  exists msg account,
    Msgs tx = [msg] /\
    GetAccount ak ctx (signer msg) = Some account /\
    let spendable := SpendableCoins account (BlockTime ctx) in
    In (EvRandomFees spendable (Fee tx) None) (trace (snd run)) /\
    IsAllLTE (Fee tx) spendable = true.
Proof.
  destruct kind; run_operation; intros Haff H; in_trace.
  all: do 2 eexists; split; [reflexivity | ]; simpl.
  all: found_account.
  all: split; [eassumption | ].
  all: split; [ simpl; auto 10 | ].
  all: match goal with
       | E : RandomFees _ _ _ = _ |- _ => exact (Haff _ _ _ _ _ E)
       end.
Qed.

(** C6 (amended).  In every invocation of EditMetadata or Burn, and in
    every invocation of Transfer on a list of accounts that is not empty,
    where the sampler returns an owner, not empty, whose address no known
    account has, the operation returns the error "account <owner> not
    found"; it returns, the engine is not called and the application is left
    as it was. *)
Theorem unknown_owner_fails (kind : OpKind)
    (ownerAddr : AccAddress) (denom nftID : string) :
  let run := invoke (Simulate kind ak k) r a ctx accs chainID in
  kind <> Mint ->
  fst (getRandomNFTFromOwner ctx k r) = (ownerAddr, denom, nftID) ->
  Empty ownerAddr = false ->
  (forall acc, In acc accs -> Address acc <> ownerAddr) ->
  (kind = Transfer -> accs <> []) ->
  fst run
  = Returned (NoOpMsg ModuleName, [], Some (account_not_found ownerAddr)) /\
  outcome_of (fst run) = Some (Failure (account_not_found ownerAddr)) /\
  Error (account_not_found ownerAddr)
    = "account " ++ AccAddress_String ownerAddr ++ " not found" /\
  requests (trace (snd run)) = [] /\
  deliveries (trace (snd run)) = [] /\
  app (snd run) = a.
Proof.
  destruct kind; intros run Hk Hs He Habs Hne; try congruence; clear Hk;
    apply FindAccount_absent in Habs; subst run;
    revert Hs He Habs Hne; run_operation; intros Hs He Habs Hne;
    simpl in Hs; inversion Hs; subst; try congruence;
    try (exfalso; now apply Hne).
  all: match goal with
       | E : FindAccount _ _ = (_, ?found) |- _ =>
           is_var found; rewrite Habs in E; inversion E; subst; clear E
       end; simpl in *; try discriminate.
  all: repeat split; reflexivity.
Qed.

(** C7 (amended).  An invocation of any of the four operations that
    returns hands over a triple that stands for exactly one outcome, and it
    returns whenever the list of accounts is not empty, [RandomAcc] picks
    among them and the keeper holds an account for each of them.  Every
    invocation, whether it returns or panics, calls the engine at most once:
    not at all when it panics, when the outcome is a no-op, when the sampled
    owner is unknown or when fee resolution failed; and when it does, as the
    last call of the invocation, with no earlier call on the engine. *)
Theorem one_outcome_one_delivery (kind : OpKind) :
  let run := invoke (Simulate kind ak k) r a ctx accs chainID in
  let log := trace (snd run) in
  (forall ret, fst run = Returned ret ->
     exists o, outcome_of (fst run) = Some o) /\
  (accs <> [] -> RandomAcc_picks_member -> keeper_knows ak ctx accs ->
     exists ret o, fst run = Returned ret /\ outcome_of (fst run) = Some o) /\
  (forall p, fst run = Panicked p ->
     outcome_of (fst run) = None /\ deliveries log = []) /\
  (List.length (deliveries log) <= 1)%nat /\
  (outcome_of (fst run) = Some NoOp -> deliveries log = []) /\
  (forall o d i, In (EvRandomNFT o d i) log ->
     Empty o = true \/ snd (FindAccount accs o) = false ->
     deliveries log = []) /\
  (forall sp f e, In (EvRandomFees sp f (Some e)) log ->
     deliveries log = []) /\
  (forall tx res, In (EvDeliver tx res) log ->
     log = (removelast log ++ [EvDeliver tx res])%list /\
     deliveries (removelast log) = []).
Proof.
  intros run log.
  split; [ | split].
  - subst run log. destruct kind; run_operation; intros ret H;
      inversion H; subst; eauto.
  - intros Hne Hmem Hknows. subst run log.
    destruct kind; run_operation; try congruence; eauto.
    all: exfalso.
    all: first
      [ match goal with
        | E : FindAccount _ _ = (?x, ?found), Hn : negb ?found = false,
          G : GetAccount _ _ (Address ?x) = None |- _ =>
            apply negb_false_iff in Hn; subst found;
            apply FindAccount_found in E; destruct E as [Hin _];
            exact (Hknows _ Hin G)
        end
      | match goal with
        | E : RandomAcc ?r0 ?l = (?x, _, _),
          G : GetAccount _ _ (Address ?x) = None |- _ =>
            let Hin := fresh "Hin" in
            pose proof (Hmem r0 l Hne) as Hin; rewrite E in Hin;
            simpl in Hin; exact (Hknows _ Hin G)
        end ].
  - subst run log.
    destruct kind; run_operation; repeat split; eauto; intros; in_trace;
      simpl in *; try discriminate; try reflexivity; try congruence.
    all: match goal with
         | E : FindAccount ?x ?y = _, H : snd (FindAccount ?x ?y) = false
           |- _ => rewrite E in H; simpl in H; subst; discriminate
         end.
Qed.

(** C9 (amended).  An invocation of Mint never ends in a no-op with a nil
    error, and the sampler of existing NFTs is not called.  It panics when
    the list of accounts is empty or the keeper holds no account for the
    sender picked, and returns otherwise; when it returns, the outcome is a
    success or a failure whose error is the one of fee resolution or the
    engine's rejection. *)
Theorem mint_never_noop :
  let run := invoke (SimulateMsgMintNFT ak k) r a ctx accs chainID in
  let log := trace (snd run) in
  let sender := fst (fst (RandomAcc r accs)) in
  outcome_of (fst run) <> Some NoOp /\
  fst run <> Returned (NoOpMsg ModuleName, [], None) /\
  samplings log = [] /\
  (accs = [] -> fst run = Panicked invalid_argument_to_Intn) /\
  (accs <> [] -> GetAccount ak ctx (Address sender) = None ->
     fst run = Panicked nil_pointer_dereference) /\
  (accs <> [] -> GetAccount ak ctx (Address sender) <> None ->
     exists ret, fst run = Returned ret) /\
  (forall ret, fst run = Returned ret ->
     (exists msg, outcome_of (fst run) = Some (Success msg)) \/
     (exists e, outcome_of (fst run) = Some (Failure e) /\
        snd ret = Some e /\
        ((exists sp f, In (EvRandomFees sp f (Some e)) log) \/
         (exists tx res, In (EvDeliver tx res) log /\
            IsOK res = false /\ e = errors_New (Log res))))).
Proof.
  run_operation; repeat split; try discriminate; try congruence; eauto;
    intros; try congruence.
  all: match goal with
       | H : Returned _ = Returned _ |- _ => inversion H; subst; clear H
       end; right; eexists; (split; [reflexivity | split; [reflexivity | ]]).
  - left. do 2 eexists. simpl. eauto.
  - right. do 2 eexists. split; [simpl; eauto 10 | ].
    split; [apply negb_true_iff; eassumption | reflexivity].
Qed.

(** C10. With a string generator that returns strings of the length it is
    asked for, every request Mint builds has an id and a denom of exactly 10
    characters and a token URI of exactly 45, and every request EditMetadata
    builds has a token URI of exactly 45 characters; each is the string of
    one call of the generator, for id, denom and token URI in this order.
    The generated strings having no white space around them, these are the
    very fields of the request. *)
Theorem generated_strings_have_fixed_length :
  let mint := invoke (SimulateMsgMintNFT ak k) r a ctx accs chainID in
  let edit := invoke (SimulateMsgEditNFTMetadata ak k) r a ctx accs chainID in
  RandStringOfLength_exact ->
  (forall msg, In msg (requests (trace (snd mint))) ->
     exists sender recipient id denom tokenURI before after,
       msg = NewMsgMintNFT sender recipient id denom tokenURI /\
       trace (snd mint)
         = (before ++ [EvRandString 10 id; EvRandString 10 denom;
                       EvRandString 45 tokenURI] ++ after)%list /\
       String.length id = 10%nat /\
       String.length denom = 10%nat /\
       String.length tokenURI = 45%nat) /\
  (forall msg, In msg (requests (trace (snd edit))) ->
     exists owner id denom tokenURI,
       msg = NewMsgEditNFTMetadata owner id denom tokenURI /\
       In (EvRandString 45 tokenURI) (trace (snd edit)) /\
       String.length tokenURI = 45%nat) /\
  (RandStringOfLength_trimmed ->
   (forall msg, In msg (requests (trace (snd mint))) ->
      exists sender recipient id denom tokenURI,
        msg = MsgMintNFT sender recipient id denom tokenURI /\
        String.length id = 10%nat /\
        String.length denom = 10%nat /\
        String.length tokenURI = 45%nat) /\
   (forall msg, In msg (requests (trace (snd edit))) ->
      exists owner id denom tokenURI,
        msg = MsgEditNFTMetadata owner id denom tokenURI /\
        String.length tokenURI = 45%nat)).
Proof.
  intros mint edit Hlen.
  assert (L : forall r0 n s r1, 0 <= n ->
            RandStringOfLength r0 n = (s, r1) ->
            String.length s = Z.to_nat n).
  { intros r0 n s r1 Hn E. specialize (Hlen r0 n Hn). rewrite E in Hlen.
    simpl in Hlen. lia. }
  assert (T : RandStringOfLength_trimmed ->
            forall r0 n s r1, RandStringOfLength r0 n = (s, r1) ->
            TrimSpace s = s).
  { intros Ht r0 n s r1 E. specialize (Ht r0 n). now rewrite E in Ht. }
  subst mint edit.
  split; [ | split; [ | intros Ht; specialize (T Ht); split ] ];
    run_operation; intros msg H; simpl in H; try contradiction;
    destruct H as [H | []]; subst msg.
  1, 2: repeat match goal with
        | E : RandStringOfLength _ _ = _ |- _ => apply L in E; [ | lia ]
        end;
    do 5 eexists; eexists [_; _; _]; eexists [_];
    split; [reflexivity | split; [reflexivity | ]];
    repeat split; assumption.
  1, 2: repeat match goal with
        | E : RandStringOfLength _ _ = _ |- _ => apply L in E; [ | lia ]
        end;
    do 4 eexists; split; [reflexivity | split; [simpl; auto 10 | ]];
    assumption.
  1, 2: unfold NewMsgMintNFT; do 5 eexists; (split; [reflexivity | ]);
    repeat match goal with
    | E : RandStringOfLength _ _ = _ |- _ =>
        rewrite (T _ _ _ _ E); apply L in E; [ | lia ]
    end;
    repeat split; assumption.
  all: unfold NewMsgEditNFTMetadata; do 4 eexists; (split; [reflexivity | ]);
    repeat match goal with
    | E : RandStringOfLength _ _ = _ |- _ =>
        rewrite (T _ _ _ _ E); apply L in E; [ | lia ]
    end;
    assumption.
Qed.



End Properties.

(* ================================================================== *)
(** ** What a returned triple tells about the run *)

Section Reports.
Context `{C : Collaborators}.
Variables (ak : AccountKeeper) (k : Keeper).
Variables (r : Rand) (a : BaseApp) (ctx : sdk_Context).
Variables (accs : list Account) (chainID : string).

(** X1. An operation reports a request only for a transaction the engine
    accepted: when the returned message is built by [NewOperationMsg], its
    flag is true, its comment is empty, the error is nil, no future operation
    is scheduled, and the engine was handed a transaction carrying exactly
    that request and answered ok. *)
Theorem success_requires_accepted_delivery (kind : OpKind)
    (msg : Msg) (ok : bool) (comment : string)
    (futures : list FutureOperation) (err : option error) :
  let run := invoke (Simulate kind ak k) r a ctx accs chainID in
  fst run = Returned (NewOperationMsg msg ok comment, futures, err) ->
  ok = true /\ comment = "" /\ futures = [] /\ err = None /\
  exists tx res,
    In (EvDeliver tx res) (trace (snd run)) /\
    res = fst (Deliver a tx) /\
    IsOK res = true /\
    Msgs tx = [msg].
Proof.
  destruct kind; run_operation; intros H; inversion H; subst.
  all: repeat (split; [reflexivity | ]).
  all: do 2 eexists; split; [simpl; eauto 10 | ].
  all: split;
    [ match goal with E : Deliver _ _ = _ |- _ => now rewrite E end | ].
  all: split; [ | reflexivity].
  all: match goal with
       | E : negb (IsOK _) = false |- _ =>
           apply negb_false_iff in E; exact E
       end.
Qed.

(** X2. A no-op with a nil error is only reported when the sampler found
    nothing: the operation is not Mint, the sampler returned the empty
    address, it is the only call of the run, and the random source is left as
    the sampler left it. *)
Theorem noop_only_without_owner (kind : OpKind)
    (route : string) (futures : list FutureOperation) :
  let run := invoke (Simulate kind ak k) r a ctx accs chainID in
  fst run = Returned (NoOpMsg route, futures, None) ->
  kind <> Mint /\ route = ModuleName /\ futures = [] /\
  Empty (fst (fst (fst (getRandomNFTFromOwner ctx k r)))) = true /\
  (exists denom id, trace (snd run) = [EvRandomNFT [] denom id]) /\
  rng (snd run) = snd (getRandomNFTFromOwner ctx k r) /\
  app (snd run) = a.
Proof.
  destruct kind; run_operation; intros H; inversion H; subst;
    empty_address; repeat split; try discriminate; eauto.
Qed.

(** X3. Every non-nil error an operation returns comes with the no-op
    message and has exactly one of three causes, which the log shows: the
    sampled owner is not among the accounts (not for Mint; fee resolution is
    then not called), fee resolution failed, or the engine rejected the
    transaction; in the first two the engine was not called. *)
Theorem failure_has_a_cause (kind : OpKind)
    (m : OperationMsg) (futures : list FutureOperation) (e : error) :
  let run := invoke (Simulate kind ak k) r a ctx accs chainID in
  let log := trace (snd run) in
  fst run = Returned (m, futures, Some e) ->
  m = NoOpMsg ModuleName /\ futures = [] /\
  ((kind <> Mint /\
    exists ownerAddr denom nftID,
      In (EvRandomNFT ownerAddr denom nftID) log /\
      Empty ownerAddr = false /\
      snd (FindAccount accs ownerAddr) = false /\
      e = account_not_found ownerAddr /\
      (forall sp f er, ~ In (EvRandomFees sp f er) log) /\
      deliveries log = []) \/
   (exists spendable fees,
      In (EvRandomFees spendable fees (Some e)) log /\
      deliveries log = []) \/
   (exists tx res,
      In (EvDeliver tx res) log /\
      IsOK res = false /\
      e = errors_New (Log res))).
Proof.
  destruct kind; run_operation; intros H; inversion H; subst;
    (split; [reflexivity | split; [reflexivity | ]]).
  all: first
    [ solve
        [ left; split; [discriminate | ];
          do 3 eexists; split; [simpl; left; reflexivity | ];
          split; [eassumption | ];
          split;
            [ match goal with
              | E : FindAccount _ _ = (_, ?found), Hn : negb ?found = true
                |- _ => rewrite E; simpl; destruct found;
                        [discriminate Hn | reflexivity]
              end
            | split; [reflexivity | ];
              split; [ intros sp f er Hin; in_trace | reflexivity ] ] ]
    | solve
        [ right; left; do 2 eexists;
          split; [simpl; eauto 10 | reflexivity] ]
    | solve
        [ right; right; do 2 eexists;
          split; [simpl; eauto 10 | ];
          split; [apply negb_true_iff; eassumption | reflexivity] ] ].
Qed.

(** X4. A request built by Transfer, EditMetadata or Burn names the NFT the
    sampler returned at the start of the run: its owner (not empty, and held
    by one of the accounts) acts, with the sampled denom and id once the
    white space around them is trimmed; the recipient of a transfer is the
    account [RandomAcc] picks right after the sampling.  Nothing checks that
    this account is not the owner: when it is, and the owner's fee is
    resolved, the transfer of the NFT to its own owner is the request
    handed to the engine. *)
Theorem request_names_sampled_nft (kind : OpKind) :
  let run := invoke (Simulate kind ak k) r a ctx accs chainID in
  let sampled := getRandomNFTFromOwner ctx k r in
  let ownerAddr := fst (fst (fst sampled)) in
  let denom := snd (fst (fst sampled)) in
  let nftID := snd (fst sampled) in
  let picked := RandomAcc (snd sampled) accs in
  let recipient := Address (fst (fst picked)) in
  kind <> Mint ->
  (forall msg, In msg (requests (trace (snd run))) ->
     Empty ownerAddr = false /\
     snd (FindAccount accs ownerAddr) = true /\
     match kind with
     | Transfer =>
         msg = MsgTransferNFT ownerAddr recipient
                              (TrimSpace denom) (TrimSpace nftID)
     | EditMetadata =>
         exists tokenURI,
           msg = MsgEditNFTMetadata ownerAddr (TrimSpace nftID)
                                    (TrimSpace denom) (TrimSpace tokenURI)
     | Burn => msg = MsgBurnNFT ownerAddr (TrimSpace nftID) (TrimSpace denom)
     | Mint => False
     end) /\
  (kind = Transfer ->
   accs <> [] ->
   Empty ownerAddr = false ->
   snd (FindAccount accs ownerAddr) = true ->
   recipient = ownerAddr ->
   forall account,
     GetAccount ak ctx ownerAddr = Some account ->
     snd (fst (RandomFees (snd picked) ctx
                          (SpendableCoins account (BlockTime ctx)))) = None ->
     requests (trace (snd run))
     = [MsgTransferNFT ownerAddr ownerAddr
                       (TrimSpace denom) (TrimSpace nftID)]).
Proof.
  intros run sampled ownerAddr denom nftID picked recipient Hk. split.
  - destruct kind; try congruence; clear Hk;
      subst run sampled ownerAddr denom nftID picked recipient;
      run_operation; intros msg H; simpl in H; try contradiction;
      destruct H as [H | []]; subst msg.
    all: split; [reflexivity | ].
    all: match goal with
         | Hn : negb ?found = false |- _ =>
             apply negb_false_iff in Hn; subst found
         end.
    all: split; [reflexivity | ];
      unfold NewMsgTransferNFT, NewMsgEditNFTMetadata, NewMsgBurnNFT;
      eauto.
  - intros Ht. subst kind. clear Hk.
    subst run sampled ownerAddr denom nftID picked recipient.
    run_operation; intros Hne He Hf Hrec account Hacc Hfee;
      simpl in *; try congruence; subst; simpl in *; try discriminate.
    all: reconcile.
    all: repeat match goal with
         | E : RandomFees _ _ _ = _ |- _ =>
             rewrite E in Hfee; simpl in Hfee; revert E
         end; intros; try discriminate.
    all: unfold requests, NewMsgTransferNFT; reflexivity.
Qed.


(** X5. The transaction handed to the engine is addressed to the chain the
    operation was called with and packs one request, one account number, one
    sequence and one key: the number and the sequence of the account the
    keeper has for the address that acts in the request, and the key of the
    simulation account with that address (for Mint the first account picked,
    for the others the one found for the sampled owner). *)
Theorem transaction_packaging (kind : OpKind) (tx : StdTx) (res : Result) :
  let run := invoke (Simulate kind ak k) r a ctx accs chainID in
  In (EvDeliver tx res) (trace (snd run)) ->
  exists msg simAccount account,
    Msgs tx = [msg] /\
    ChainID tx = chainID /\
    Address simAccount = signer msg /\
    Signers tx = [Acc_PrivKey simAccount] /\
    GetAccount ak ctx (signer msg) = Some account /\
    AccNums tx = [GetAccountNumber account] /\
    Seqs tx = [GetSequence account] /\
    match kind with
    | Mint => simAccount = fst (fst (RandomAcc r accs))
    | _ => FindAccount accs (signer msg) = (simAccount, true)
    end.
Proof.
  destruct kind; run_operation; intros H; in_trace.
  all: do 3 eexists; split; [reflexivity | split; [reflexivity | ]]; simpl.
  all: found_account.
  all: repeat split; try reflexivity; try eassumption.
Qed.

(** X6. What an operation draws from the random source does not depend on
    the engine: two runs from the same random source, ledger and accounts
    make the same calls with the same answers, leave the random source in the
    same state and hand over a transaction together or not at all, whatever
    the state of the application and the chain id. *)
Theorem draws_independent_of_engine (kind : OpKind)
    (a1 a2 : BaseApp) (chainID1 chainID2 : string) :
  let run1 := invoke (Simulate kind ak k) r a1 ctx accs chainID1 in
  let run2 := invoke (Simulate kind ak k) r a2 ctx accs chainID2 in
  rng (snd run1) = rng (snd run2) /\
  draws (trace (snd run1)) = draws (trace (snd run2)) /\
  List.length (deliveries (trace (snd run1)))
  = List.length (deliveries (trace (snd run2))).
Proof.
  destruct kind; run_operation; repeat split; reflexivity.
Qed.

(** X7. An operation touches the application only through [Deliver]: after
    a run the application is the one it was called with when no transaction
    was handed over, and otherwise the one [Deliver] left, also when the
    engine rejected the transaction. *)
Theorem application_changed_only_by_delivery (kind : OpKind) :
  let run := invoke (Simulate kind ak k) r a ctx accs chainID in
  app (snd run)
  = match deliveries (trace (snd run)) with
    | [] => a
    | (tx, _) :: _ => snd (Deliver a tx)
    end.
Proof.
  destruct kind; run_operation; try reflexivity;
    match goal with E : Deliver _ _ = _ |- _ => now rewrite E end.
Qed.

(** X8. The calls of a run are an initial part of the calls of the body of
    its operation, in order: the whole of it exactly when a transaction is
    handed to the engine, and cut right after the fee resolution when that
    fails, so that no string is generated for a request that is not built. *)
Theorem calls_follow_pipeline (kind : OpKind) :
  let run := invoke (Simulate kind ak k) r a ctx accs chainID in
  let log := trace (snd run) in
  exists rest,
    pipeline kind = (map call_of log ++ rest)%list /\
    (rest = [] <-> deliveries log <> []) /\
    (forall spendable fees e,
       In (EvRandomFees spendable fees (Some e)) log ->
       log = (removelast log ++ [EvRandomFees spendable fees (Some e)])%list).
Proof.
  destruct kind; run_operation; eexists; (split; [reflexivity | ]);
    (split;
       [ split; intros H;
         [ first [discriminate H | intros H'; discriminate H']
         | first [reflexivity | exfalso; apply H; reflexivity] ]
       | ]);
    intros; in_trace; reflexivity.
Qed.

(** X9. When the sampled owner is not among the accounts, Transfer has
    already called [RandomAcc] for its recipient: on a list of accounts that
    is not empty it leaves the random source one [RandomAcc] call further
    than EditMetadata and Burn, which stop right after the sampling; on the
    empty list it panics in that call, with the random source as the
    sampling left it. *)
Theorem unknown_owner_draws (kind : OpKind) :
  let run := invoke (Simulate kind ak k) r a ctx accs chainID in
  let sampled := getRandomNFTFromOwner ctx k r in
  kind <> Mint ->
  Empty (fst (fst (fst sampled))) = false ->
  snd (FindAccount accs (fst (fst (fst sampled)))) = false ->
  match kind with
  | Transfer =>
      (accs <> [] ->
       rng (snd run) = snd (RandomAcc (snd sampled) accs) /\
       map call_of (trace (snd run)) = [CallRandomNFT; CallRandomAcc]) /\
      (accs = [] ->
       fst run = Panicked invalid_argument_to_Intn /\
       rng (snd run) = snd sampled /\
       map call_of (trace (snd run)) = [CallRandomNFT])
  | _ =>
      rng (snd run) = snd sampled /\
      map call_of (trace (snd run)) = [CallRandomNFT]
  end.
Proof.
  destruct kind; intros run sampled Hk; try congruence; clear Hk;
    subst run sampled; run_operation; intros He Hf; simpl in *;
    try discriminate; repeat split; intros; try congruence;
    try reflexivity.
  all: subst; simpl in *; discriminate.
Qed.

(** X10. EditMetadata and Burn are the same operation up to the building of
    the request: on the same input one stops before the engine exactly when
    the other does, and then both return the same triple and leave the same
    state. *)
Theorem burn_edit_agree_before_submission :
  let burn := invoke (SimulateMsgBurnNFT ak k) r a ctx accs chainID in
  let edit := invoke (SimulateMsgEditNFTMetadata ak k) r a ctx accs chainID in
  (deliveries (trace (snd burn)) = []
   <-> deliveries (trace (snd edit)) = []) /\
  (deliveries (trace (snd burn)) = [] -> burn = edit).
Proof.
  run_operation; split; try split; intros; try discriminate; reflexivity.
Qed.

End Reports.

(* ================================================================== *)
(** ** The reference instance meets the contracts *)

Lemma Intn_range (r : Reference.Rand) (n : Z) :
  0 < n -> 0 <= fst (Reference.Intn r n) < n.
Proof.
  intros Hn. unfold Reference.Intn. destruct (Reference.draw r) as [x r'].
  simpl. apply Z.mod_pos_bound. exact Hn.
Qed.

Lemma Intn_index (r : Reference.Rand) (A : Type) (l : list A) :
  l <> [] ->
  (Z.to_nat (fst (Reference.Intn r (Z.of_nat (List.length l))))
   < List.length l)%nat.
Proof.
  intros Hl.
  assert (0 < Z.of_nat (List.length l)) by (destruct l; [congruence | simpl; lia]).
  pose proof (Intn_range r H). lia.
Qed.

Lemma Reference_RandomFees_affordable :
  @RandomFees_affordable Reference.collaborators.
Proof.
  intros r ctx spendable fees r'. simpl. unfold Reference.RandomFees.
  set (payable := filter _ spendable).
  destruct payable as [|c0 rest] eqn:E; [discriminate | ].
  rewrite <- E.
  assert (Hne : payable <> []) by (rewrite E; discriminate).
  pose proof (Intn_index r Hne) as Hi.
  destruct (Reference.Intn r (Z.of_nat (List.length payable))) as [i r1].
  simpl in Hi.
  set (coin := nth (Z.to_nat i) payable (NewCoin "" 0)).
  assert (Hin : In coin payable) by (apply nth_In; exact Hi).
  apply filter_In in Hin. destruct Hin as [_ Hpos].
  apply Z.ltb_lt in Hpos.
  pose proof (Intn_range r1 Hpos) as Ha.
  destruct (Reference.Intn r1 (AmountOf (Denom coin) spendable)) as [x r2].
  simpl in Ha. intros H. inversion H; subst. simpl.
  rewrite andb_true_r. apply Z.leb_le. lia.
Qed.

Lemma rand_letters_length (n : nat) (r : Reference.Rand) :
  String.length (fst (Reference.rand_letters n r)) = n.
Proof.
  revert r; induction n as [|n IH]; intros r; simpl.
  - reflexivity.
  - destruct (Reference.Intn r 62) as [i r1].
    specialize (IH r1). destruct (Reference.rand_letters n r1) as [s r2].
    simpl in *. now rewrite IH.
Qed.

Lemma Reference_RandStringOfLength_exact :
  @RandStringOfLength_exact Reference.collaborators.
Proof.
  intros r n Hn. simpl. unfold Reference.RandStringOfLength.
  rewrite rand_letters_length. lia.
Qed.

(** No letter of the generator is white space, so trimming keeps its
    strings whole. *)
Lemma letters_no_space (n : nat) :
  Reference.is_space (nth n Reference.letters "a"%char) = false.
Proof.
  destruct (nth_in_or_default n Reference.letters "a"%char) as [H | ->];
    [ | reflexivity].
  revert H. generalize (nth n Reference.letters "a"%char). intros c H.
  vm_compute in H.
  repeat (destruct H as [<- | H]; [reflexivity | ]). contradiction.
Qed.

Lemma TrimSpace_no_space (s : string) :
  (forall c, In c (list_ascii_of_string s) -> Reference.is_space c = false) ->
  Reference.TrimSpace s = s.
Proof.
  intros H. unfold Reference.TrimSpace.
  assert (L : Reference.trim_left s = s).
  { destruct s as [|c s']; [reflexivity | ]. simpl.
    rewrite (H c) by (simpl; now left). reflexivity. }
  rewrite L. clear L.
  induction s as [|c s' IH]; [reflexivity | ]. simpl.
  rewrite IH by (intros c' Hc'; apply H; simpl; now right).
  destruct s'; [ | reflexivity].
  rewrite (H c) by (simpl; now left). reflexivity.
Qed.

Lemma rand_letters_no_space (n : nat) (r : Reference.Rand) (c : ascii) :
  In c (list_ascii_of_string (fst (Reference.rand_letters n r))) ->
  Reference.is_space c = false.
Proof.
  revert r; induction n as [|n IH]; intros r; simpl.
  - contradiction.
  - destruct (Reference.Intn r 62) as [i r1].
    specialize (IH r1). destruct (Reference.rand_letters n r1) as [s r2].
    simpl in *. intros [<- | H]; [apply letters_no_space | now apply IH].
Qed.

Lemma Reference_RandStringOfLength_trimmed :
  @RandStringOfLength_trimmed Reference.collaborators.
Proof.
  intros r n. simpl. unfold Reference.RandStringOfLength.
  apply TrimSpace_no_space. intros c. apply rand_letters_no_space.
Qed.

Lemma Reference_RandomAcc_picks_member :
  @RandomAcc_picks_member Reference.collaborators.
Proof.
  intros r accs Hne. simpl. unfold Reference.RandomAcc.
  pose proof (Intn_index r Hne) as Hi.
  destruct (Reference.Intn r (Z.of_nat (List.length accs))) as [i r1].
  simpl in *. apply nth_In. exact Hi.
Qed.

Lemma Reference_keeper_knows :
  @keeper_knows Reference.collaborators Reference.ak
                Reference.one_nft_ledger Reference.accs.
Proof.
  intros acc [<- | [<- | []]]; discriminate.
Qed.









(* ================================================================== *)
(** ** The properties on the scenarios of the specification *)

(** Burn on the ledger with no NFT: a no-op, and the engine is not called. *)
Lemma no_owner_is_noop_witness :
  let run := Reference.run Burn Reference.empty_ledger [3; 1] "sim" in
  Empty (fst (fst (fst (Reference.getRandomNFTFromOwner
                          Reference.empty_ledger tt [3; 1])))) = true /\
  fst run = Returned (NoOpMsg "nft", [], None) /\
  outcome_of (fst run) = Some NoOp /\
  (exists denom id, trace (snd run) = [EvRandomNFT [] denom id]) /\
  requests (trace (snd run)) = [] /\
  deliveries (trace (snd run)) = [] /\
  app (snd run) = Reference.engine.
Proof.
  split; [reflexivity | ].
  apply (@no_owner_is_noop Reference.collaborators Reference.ak tt [3; 1]
           Reference.engine Reference.empty_ledger Reference.accs "sim" Burn).
  - discriminate.
  - reflexivity.
Defined.

(** The transfer of the NFT of A to B, accepted by the engine and rejected
    when addressed to another chain. *)
Lemma delivery_classified_witness :
  let run := Reference.run Transfer Reference.one_nft_ledger [0; 0; 1; 0; 5] in
  let ok := {| IsOK := true; Log := "" |} in
  let rejected := {| IsOK := false; Log := "unauthorized: wrong chain id" |} in
  (In (EvDeliver (Reference.transfer_tx "sim") ok) (trace (snd (run "sim"))) /\
   outcome_of (fst (run "sim"))
   = Some (Success (MsgTransferNFT Reference.addrA Reference.addrB
                                   "collectible" "001"))) /\
  (In (EvDeliver (Reference.transfer_tx "other") rejected)
      (trace (snd (run "other"))) /\
   exists reason,
     outcome_of (fst (run "other")) = Some (Failure reason) /\
     Error reason = "unauthorized: wrong chain id").
Proof.
  intros run ok rejected.
  assert (Hok : In (EvDeliver (Reference.transfer_tx "sim") ok)
                   (trace (snd (run "sim")))).
  { vm_compute. auto 10. }
  assert (Hrej : In (EvDeliver (Reference.transfer_tx "other") rejected)
                    (trace (snd (run "other")))).
  { vm_compute. auto 10. }
  split; split; try assumption.
  - destruct (@delivery_classified Reference.collaborators Reference.ak tt
                [0; 0; 1; 0; 5] Reference.engine Reference.one_nft_ledger
                Reference.accs "sim" Transfer _ _ Hok)
      as (_ & msg & Hmsg & Hsuccess & _).
    injection Hmsg as <-. apply Hsuccess. reflexivity.
  - destruct (@delivery_classified Reference.collaborators Reference.ak tt
                [0; 0; 1; 0; 5] Reference.engine Reference.one_nft_ledger
                Reference.accs "other" Transfer _ _ Hrej)
      as (_ & msg & _ & _ & Hfailure).
    destruct (Hfailure eq_refl) as (reason & _ & Ho & He).
    exists reason. split; [exact Ho | exact He].
Defined.

(** Mint with a sender that has nothing to spend: the failure of fee
    resolution is the outcome, and nothing is submitted. *)
Lemma fee_failure_propagates_witness :
  let run := Reference.run Mint Reference.empty_ledger [1; 0; 7] "sim" in
  let e := errors_New "insufficient funds" in
  In (EvRandomFees [] [] (Some e)) (trace (snd run)) /\
  fst run = Returned (NoOpMsg "nft", [], Some e) /\
  outcome_of (fst run) = Some (Failure e) /\
  requests (trace (snd run)) = [] /\
  deliveries (trace (snd run)) = [] /\
  app (snd run) = Reference.engine.
Proof.
  intros run e.
  assert (H : In (EvRandomFees [] [] (Some e)) (trace (snd run))).
  { vm_compute. auto 10. }
  split; [exact H | ].
  exact (@fee_failure_propagates Reference.collaborators Reference.ak tt
           [1; 0; 7] Reference.engine Reference.empty_ledger Reference.accs
           "sim" Mint _ _ _ H).
Defined.

(** The fee of the transfer of A is within the 100 stake that A can spend. *)
Lemma fee_within_spendable_witness :
  let run := Reference.run Transfer Reference.one_nft_ledger
                           [0; 0; 1; 0; 5] "sim" in
  let ok := {| IsOK := true; Log := "" |} in
  In (EvDeliver (Reference.transfer_tx "sim") ok) (trace (snd run)) /\
  exists msg account,
    Msgs (Reference.transfer_tx "sim") = [msg] /\
    GetAccount Reference.ak Reference.one_nft_ledger (signer msg)
    = Some account /\
    let spendable := SpendableCoins account 0 in
    In (EvRandomFees spendable (Fee (Reference.transfer_tx "sim")) None)
       (trace (snd run)) /\
    IsAllLTE (Fee (Reference.transfer_tx "sim")) spendable = true.
Proof.
  intros run ok.
  assert (H : In (EvDeliver (Reference.transfer_tx "sim") ok) (trace (snd run))).
  { vm_compute. auto 10. }
  split; [exact H | ].
  exact (@fee_within_spendable Reference.collaborators Reference.ak tt
           [0; 0; 1; 0; 5] Reference.engine Reference.one_nft_ledger
           Reference.accs "sim" Transfer _ _
           Reference_RandomFees_affordable H).
Defined.

(** Transfer when the only NFT belongs to C, an address no account has. *)
Lemma unknown_owner_fails_witness :
  let run := Reference.run Transfer Reference.stranger_ledger [0; 0; 1] "sim" in
  let e := errors_New "account C not found" in
  fst (Reference.getRandomNFTFromOwner Reference.stranger_ledger tt [0; 0; 1])
  = (Reference.addrC, "collectible", "001") /\
  (forall acc, In acc Reference.accs -> Address acc <> Reference.addrC) /\
  Reference.accs <> [] /\
  fst run = Returned (NoOpMsg "nft", [], Some e) /\
  outcome_of (fst run) = Some (Failure e) /\
  deliveries (trace (snd run)) = [] /\
  app (snd run) = Reference.engine.
Proof.
  intros run e.
  assert (Habs : forall acc, In acc Reference.accs ->
                             Address acc <> Reference.addrC).
  { intros acc [<- | [<- | []]]; discriminate. }
  split; [reflexivity | split; [exact Habs | split; [discriminate | ]]].
  destruct (@unknown_owner_fails Reference.collaborators Reference.ak tt
              [0; 0; 1] Reference.engine Reference.stranger_ledger
              Reference.accs "sim" Transfer Reference.addrC
              "collectible" "001")
    as (Hret & Hout & _ & _ & Hdel & Happ);
    [discriminate | reflexivity | reflexivity | exact Habs | discriminate | ].
  repeat split; assumption.
Defined.

(** C6 without the condition on the list of accounts fails: with no account
    at all the owner C is not among the known accounts, and Transfer panics
    in [RandomAcc] instead of returning the error. *)
Lemma unknown_owner_fails_counterexample :
  fst (Reference.getRandomNFTFromOwner Reference.stranger_ledger tt [0; 0; 1])
  = (Reference.addrC, "collectible", "001") /\
  Empty Reference.addrC = false /\
  FindAccount [] Reference.addrC = (Account_zero, false) /\
  fst (Reference.run_with [] Transfer Reference.stranger_ledger [0; 0; 1] "sim")
  = Panicked invalid_argument_to_Intn /\
  fst (Reference.run_with [] Transfer Reference.stranger_ledger [0; 0; 1] "sim")
  <> Returned (NoOpMsg "nft", [],
               Some (errors_New "account C not found")).
Proof.
  repeat split; try reflexivity. discriminate.
Qed.

(** An invocation on the accounts A and B, which the keeper knows: it
    returns one outcome. *)
Lemma one_outcome_one_delivery_witness :
  exists ret o,
    fst (Reference.run Transfer Reference.one_nft_ledger [0; 0; 1; 0; 5] "sim")
    = Returned ret /\
    outcome_of
      (fst (Reference.run Transfer Reference.one_nft_ledger
                          [0; 0; 1; 0; 5] "sim")) = Some o.
Proof.
  destruct (@one_outcome_one_delivery Reference.collaborators Reference.ak tt
              [0; 0; 1; 0; 5] Reference.engine Reference.one_nft_ledger
              Reference.accs "sim" Transfer)
    as (_ & Hreturns & _).
  apply Hreturns.
  - discriminate.
  - exact Reference_RandomAcc_picks_member.
  - exact Reference_keeper_knows.
Defined.

(** C7 for every invocation fails: Mint with no account at all panics in
    [RandomAcc], and Mint whose sender the keeper holds no account for
    panics on the nil account; neither hands over an outcome. *)
Lemma one_outcome_one_delivery_counterexample :
  fst (Reference.run_with [] Mint Reference.empty_ledger [0; 0; 1] "sim")
  = Panicked invalid_argument_to_Intn /\
  outcome_of
    (fst (Reference.run_with [] Mint Reference.empty_ledger [0; 0; 1] "sim"))
  = None /\
  fst (Reference.run_with [Reference.accC] Mint Reference.empty_ledger
                          [0; 0; 1] "sim")
  = Panicked nil_pointer_dereference /\
  outcome_of
    (fst (Reference.run_with [Reference.accC] Mint Reference.empty_ledger
                             [0; 0; 1] "sim"))
  = None.
Proof.
  repeat split; reflexivity.
Qed.

(** Mint on the accounts A and B returns. *)
Lemma mint_never_noop_witness :
  exists ret,
    fst (Reference.run Mint Reference.empty_ledger [0; 1; 0; 5] "sim")
    = Returned ret.
Proof.
  destruct (@mint_never_noop Reference.collaborators Reference.ak tt
              [0; 1; 0; 5] Reference.engine Reference.empty_ledger
              Reference.accs "sim")
    as (_ & _ & _ & _ & _ & Hreturns & _).
  apply Hreturns; discriminate.
Defined.

(** C9 for every invocation fails: Mint with no account at all ends neither
    in a success nor in a returned error. *)
Lemma mint_never_noop_counterexample :
  fst (Reference.run_with [] Mint Reference.empty_ledger [0; 0; 1] "sim")
  = Panicked invalid_argument_to_Intn /\
  outcome_of
    (fst (Reference.run_with [] Mint Reference.empty_ledger [0; 0; 1] "sim"))
  = None /\
  trace (snd (Reference.run_with [] Mint Reference.empty_ledger
                                 [0; 0; 1] "sim")) = [].
Proof.
  repeat split; reflexivity.
Qed.

(** The strings of a Mint and of an EditMetadata of the reference instance. *)
Lemma generated_strings_have_fixed_length_witness :
  let mint := Reference.run Mint Reference.one_nft_ledger [0; 1; 0; 5] "sim" in
  let edit :=
    Reference.run EditMetadata Reference.one_nft_ledger [0; 1; 0; 5] "sim" in
  @RandStringOfLength_exact Reference.collaborators /\
  @RandStringOfLength_trimmed Reference.collaborators /\
  (forall msg, In msg (requests (trace (snd mint))) ->
     exists sender recipient id denom tokenURI,
       msg = MsgMintNFT sender recipient id denom tokenURI /\
       String.length id = 10%nat /\
       String.length denom = 10%nat /\
       String.length tokenURI = 45%nat) /\
  (forall msg, In msg (requests (trace (snd edit))) ->
     exists owner id denom tokenURI,
       msg = MsgEditNFTMetadata owner id denom tokenURI /\
       String.length tokenURI = 45%nat) /\
  requests (trace (snd mint)) <> [] /\
  requests (trace (snd edit)) <> [].
Proof.
  intros mint edit.
  split; [exact Reference_RandStringOfLength_exact | ].
  split; [exact Reference_RandStringOfLength_trimmed | ].
  destruct (@generated_strings_have_fixed_length Reference.collaborators
              Reference.ak tt [0; 1; 0; 5] Reference.engine
              Reference.one_nft_ledger Reference.accs "sim"
              Reference_RandStringOfLength_exact)
    as (_ & _ & Hfields).
  destruct (Hfields Reference_RandStringOfLength_trimmed) as [Hmint Hedit].
  split; [exact Hmint | split; [exact Hedit | ]].
  split; discriminate.
Defined.

(** The accepted transfer of the NFT of A to B is reported with its request. *)
Lemma success_requires_accepted_delivery_witness :
  let run := Reference.run Transfer Reference.one_nft_ledger
                           [0; 0; 1; 0; 5] "sim" in
  let msg := MsgTransferNFT Reference.addrA Reference.addrB
                            "collectible" "001" in
  fst run = Returned (NewOperationMsg msg true "", [], None) /\
  exists tx res,
    In (EvDeliver tx res) (trace (snd run)) /\
    res = fst (Reference.Deliver Reference.engine tx) /\
    IsOK res = true /\
    Msgs tx = [msg].
Proof.
  intros run msg.
  assert (H : fst run = Returned (NewOperationMsg msg true "", [], None))
    by reflexivity.
  split; [exact H | ].
  destruct (@success_requires_accepted_delivery Reference.collaborators
              Reference.ak tt [0; 0; 1; 0; 5] Reference.engine
              Reference.one_nft_ledger Reference.accs "sim" Transfer
              _ _ _ _ _ H)
    as (_ & _ & _ & _ & Hex).
  exact Hex.
Defined.

(** The no-op of Burn on the ledger with no NFT. *)
Lemma noop_only_without_owner_witness :
  let run := Reference.run Burn Reference.empty_ledger [3; 1] "sim" in
  fst run = Returned (NoOpMsg "nft", [], None) /\
  Empty (fst (fst (fst (Reference.getRandomNFTFromOwner
                          Reference.empty_ledger tt [3; 1])))) = true /\
  (exists denom id, trace (snd run) = [EvRandomNFT [] denom id]) /\
  rng (snd run) = [3; 1].
Proof.
  intros run.
  assert (H : fst run = Returned (NoOpMsg "nft", [], None)) by reflexivity.
  split; [exact H | ].
  destruct (@noop_only_without_owner Reference.collaborators
              Reference.ak tt [3; 1] Reference.engine
              Reference.empty_ledger Reference.accs "sim" Burn _ _ H)
    as (_ & _ & _ & He & Hlog & Hrng & _).
  split; [exact He | split; [exact Hlog | exact Hrng]].
Defined.

(** The transfer addressed to another chain fails by the engine's rejection. *)
Lemma failure_has_a_cause_witness :
  let run := Reference.run Transfer Reference.one_nft_ledger
                           [0; 0; 1; 0; 5] "other" in
  let e := errors_New "unauthorized: wrong chain id" in
  fst run = Returned (NoOpMsg "nft", [], Some e) /\
  ((Transfer <> Mint /\
    exists ownerAddr denom nftID,
      In (EvRandomNFT ownerAddr denom nftID) (trace (snd run)) /\
      Empty ownerAddr = false /\
      snd (FindAccount Reference.accs ownerAddr) = false /\
      e = @account_not_found Reference.collaborators ownerAddr /\
      (forall sp f er, ~ In (EvRandomFees sp f er) (trace (snd run))) /\
      deliveries (trace (snd run)) = []) \/
   (exists spendable fees,
      In (EvRandomFees spendable fees (Some e)) (trace (snd run)) /\
      deliveries (trace (snd run)) = []) \/
   (exists tx res,
      In (EvDeliver tx res) (trace (snd run)) /\
      IsOK res = false /\
      e = errors_New (Log res))).
Proof.
  intros run e.
  assert (H : fst run = Returned (NoOpMsg "nft", [], Some e)) by reflexivity.
  split; [exact H | ].
  destruct (@failure_has_a_cause Reference.collaborators
              Reference.ak tt [0; 0; 1; 0; 5] Reference.engine
              Reference.one_nft_ledger Reference.accs "other" Transfer
              _ _ _ H)
    as (_ & _ & Hcause).
  exact Hcause.
Defined.

(** The NFT of A is stored with white space around its denom and id, and
    the account picked for the recipient is A itself: the request is the
    transfer from A to A of the trimmed denom and id. *)
Lemma request_names_sampled_nft_witness :
  let run := Reference.run Transfer Reference.spaced_ledger
                           [0; 0; 0; 0; 5] "sim" in
  let msg := MsgTransferNFT Reference.addrA Reference.addrA
                            "collectible" "001" in
  fst (Reference.getRandomNFTFromOwner Reference.spaced_ledger tt
                                       [0; 0; 0; 0; 5])
  = (Reference.addrA, "collectible ", " 001") /\
  (forall m, In m (requests (trace (snd run))) -> m = msg) /\
  requests (trace (snd run)) = [msg].
Proof.
  intros run msg.
  split; [reflexivity | ].
  destruct (@request_names_sampled_nft Reference.collaborators
              Reference.ak tt [0; 0; 0; 0; 5] Reference.engine
              Reference.spaced_ledger Reference.accs "sim" Transfer)
    as [Hnames Hself]; [discriminate | ].
  split.
  - intros m Hin. destruct (Hnames m Hin) as (_ & _ & Hm). exact Hm.
  - eapply Hself; try reflexivity. discriminate.
Defined.

(** The transaction of the transfer: chain, number, sequence and key of A. *)
Lemma transaction_packaging_witness :
  let run := Reference.run Transfer Reference.one_nft_ledger
                           [0; 0; 1; 0; 5] "sim" in
  let tx := Reference.transfer_tx "sim" in
  In (EvDeliver tx {| IsOK := true; Log := "" |}) (trace (snd run)) /\
  exists msg simAccount account,
    Msgs tx = [msg] /\
    ChainID tx = "sim" /\
    Address simAccount = signer msg /\
    Signers tx = [Acc_PrivKey simAccount] /\
    GetAccount Reference.ak Reference.one_nft_ledger (signer msg)
    = Some account /\
    AccNums tx = [GetAccountNumber account] /\
    Seqs tx = [GetSequence account] /\
    FindAccount Reference.accs (signer msg) = (simAccount, true).
Proof.
  intros run tx.
  assert (H : In (EvDeliver tx {| IsOK := true; Log := "" |})
                 (trace (snd run))).
  { vm_compute. auto 10. }
  split; [exact H | ].
  exact (@transaction_packaging Reference.collaborators
           Reference.ak tt [0; 0; 1; 0; 5] Reference.engine
           Reference.one_nft_ledger Reference.accs "sim" Transfer _ _ H).
Defined.

(** Transfer with the NFT of the unknown C: sampling, then the pick. *)
Lemma unknown_owner_draws_witness :
  let run := Reference.run Transfer Reference.stranger_ledger [0; 0; 1; 7] "sim" in
  snd (FindAccount Reference.accs Reference.addrC) = false /\
  rng (snd run) = [7] /\
  map call_of (trace (snd run)) = [CallRandomNFT; CallRandomAcc].
Proof.
  intros run.
  split; [reflexivity | ].
  destruct (@unknown_owner_draws Reference.collaborators
              Reference.ak tt [0; 0; 1; 7] Reference.engine
              Reference.stranger_ledger Reference.accs "sim" Transfer
              ltac:(discriminate) eq_refl eq_refl)
    as [Hsome _].
  apply Hsome. discriminate.
Defined.

(** The scenarios of section 8 of the specification, run. *)
Example transfer_scenario :
  fst (Reference.run Transfer Reference.one_nft_ledger [0; 0; 1; 0; 5] "sim")
  = Returned
      (NewOperationMsg
         (MsgTransferNFT Reference.addrA Reference.addrB "collectible" "001")
         true "", [], None).
Proof. reflexivity. Qed.

Example burn_scenario :
  let run := Reference.run Burn Reference.empty_ledger [0; 0; 1; 0; 5] "sim" in
  outcome_of (fst run) = Some NoOp /\ deliveries (trace (snd run)) = [].
Proof. split; reflexivity. Qed.

Example mint_zero_balance_scenario :
  let run := Reference.run Mint Reference.empty_ledger [1; 0; 7] "sim" in
  outcome_of (fst run) = Some (Failure (errors_New "insufficient funds")) /\
  deliveries (trace (snd run)) = [].
Proof. split; reflexivity. Qed.
